(** * Notes backend: the request handlers of [server/main.py]

    A shallow embedding of the FastAPI handlers [list_notes], [create_note],
    [delete_note] and [summarize_note], which all read and write one
    module-level list [NOTES], and the properties of the service that follow
    from them. *)

From Stdlib Require Import ZArith Lia Ascii.
From stdpp Require Import base decidable option list sorting strings pretty.

(** ** Data model *)

(** Modelled from the spec: [models.py] is not part of the sources at hand.
    A [Note] is the record [{id: string, text: string}]; it is built with
    [Note(id=..., text=...)] and read through [n.id] and [n.text]. *)
Record Note : Type := mkNote { id : string; text : string }.

(** Modelled from the spec: the body [{text: string}] of [POST /api/notes]. *)
Record CreateNoteRequest : Type := mkCreateNoteRequest { payload_text : string }.

(** Modelled from the spec: the body [{userQuery, notesId, modelName}] of
    [POST /api/notes/summary]. A field the client left out (where the request
    model lets it) reads as Python's [None], hence [option string]. *)
Record SummaryRequest : Type := mkSummaryRequest {
  userQuery : option string;
  notesId : option string;
  modelName : option string
}.

(** Python's truth value of an optional string: [None] and [""] are falsy. *)
Definition truthy (v : option string) : bool :=
  match v with
  | Some s => bool_decide (s ≠ "")
  | None => false
  end.

(** [str(n)] for a Python [int]: decimal digits, with a leading minus sign
    for a negative number. *)
Definition str (n : Z) : string := pretty n.

(** The process-wide note list. *)
Abbreviation Store := (list Note).

(** Modelled from the spec: [storage.py] is not part of the sources at hand;
    the note list is created empty when the process starts. *)
Definition NOTES_initial : Store := [].

(** ** Responses and exceptions *)

(** JSON payloads the handlers produce. *)
Inductive Body : Type :=
  | Null                                  (* content=None *)
  | TextBody (text : string)              (* plain text *)
  | ErrorBody (error : string)            (* {"error": ...} *)
  | DetailBody (detail : string)          (* {"detail": ...} *)
  | NotesBody (notes : list Note)         (* [Note, ...] *)
  | NoteBody (note : Note)                (* Note *)
  | SummaryResponse (summary : string).   (* {"summary": ...} *)

(** What a handler hands back to the framework: a plain value, rendered with
    the status code of the route decorator, or an explicit [JSONResponse]. *)
Inductive Returned : Type :=
  | Plain (value : Body)
  | JSONResponse (status_code : Z) (content : Body).

Inductive Exn : Type :=
  | HTTPException (status_code : Z) (detail : string)
  | Exception.

Inductive Outcome (A : Type) : Type :=
  | Return (a : A)
  | Raise (e : Exn).
Arguments Return {A} a.
Arguments Raise {A} e.

Record Response : Type := mkResponse { status : Z; body : Body }.

(** The constants of [fastapi.status] the handlers use. *)
Module status_codes.
Definition HTTP_200_OK : Z := 200.
Definition HTTP_201_CREATED : Z := 201.
Definition HTTP_204_NO_CONTENT : Z := 204.
Definition HTTP_400_BAD_REQUEST : Z := 400.
Definition HTTP_404_NOT_FOUND : Z := 404.
Definition HTTP_500_INTERNAL_SERVER_ERROR : Z := 500.
End status_codes.
Import status_codes.

(** ** Handlers as state transformers over [NOTES] that may raise *)

Definition Handler (A : Type) : Type := Store → Outcome A * Store.

Global Instance Handler_ret : MRet Handler := λ A a NOTES, (Return a, NOTES).
Global Instance Handler_bind : MBind Handler := λ A B k m NOTES,
  match m NOTES with
  | (Return a, NOTES') => k a NOTES'
  | (Raise e, NOTES') => (Raise e, NOTES')
  end.

(** Reading the global [NOTES]. *)
Definition read_NOTES : Handler Store := λ NOTES, (Return NOTES, NOTES).
(** [NOTES = l] under [global NOTES]. *)
Definition assign_NOTES (l : Store) : Handler unit := λ _, (Return tt, l).
(** [NOTES.append(n)]. *)
Definition NOTES_append (n : Note) : Handler unit := λ NOTES, (Return tt, NOTES ++ [n]).
(** [raise e]. *)
Definition raise {A} (e : Exn) : Handler A := λ NOTES, (Raise e, NOTES).
(** [try: m  except Exception: h]; what [m] did to [NOTES] before it raised
    stays done. [HTTPException] is a subclass of [Exception]. *)
Definition try_except {A} (m : Handler A) (h : Handler A) : Handler A := λ NOTES,
  match m NOTES with
  | (Return a, NOTES') => (Return a, NOTES')
  | (Raise _, NOTES') => h NOTES'
  end.

(** ** The language-model adapters *)

(** Modelled from the spec: [llm_clients.py] is not part of the sources at
    hand. An adapter takes the note text and the query and either returns a
    string or a falsy value ([None], [""]), or raises. *)
Inductive AdapterResult : Type :=
  | Returns (llm_res : option string)
  | Raises.

Definition Adapter : Type := string → string → AdapterResult.

Definition call (r : AdapterResult) : Handler (option string) :=
  match r with
  | Returns v => mret v
  | Raises => raise Exception
  end.

(** ** The handlers *)

(** [GET /]. *)
Definition root : Handler Returned :=
  mret (Plain (TextBody "server is up")).

(** [GET /api/notes]. *)
Definition list_notes : Handler Returned :=
  NOTES ← read_NOTES;
  mret (Plain (NotesBody NOTES)).

(** [POST /api/notes]; [now_ms] is what [int(time.time() * 1000)] evaluates
    to during the call. *)
Definition create_note (now_ms : Z) (payload : CreateNoteRequest) : Handler Returned :=
  let note := {| id := str now_ms; text := payload_text payload |} in
  _ ← NOTES_append note;
  mret (Plain (NoteBody note)).

(** [DELETE /api/notes/{note_id}]. *)
Definition delete_note (note_id : string) : Handler Returned :=
  NOTES ← read_NOTES;
  let before_count := length NOTES in
  _ ← assign_NOTES (filter (λ n, id n ≠ note_id) NOTES);
  NOTES ← read_NOTES;
  if decide (length NOTES = before_count)
  then raise (HTTPException HTTP_404_NOT_FOUND "Note not found")
  else mret (JSONResponse HTTP_204_NO_CONTENT Null).

(** [next((n for n in NOTES if n.id == notes_id), None)]. *)
Definition next_match (notes_id : string) (NOTES : Store) : option Note :=
  snd <$> list_find (λ n, id n = notes_id) NOTES.

(** [POST /api/notes/summary]. The two adapters are the functions the module
    imported; [now_ms] is the clock reading of line 119, taken only when the
    handler gets that far. *)
Definition summarize_note (now_ms : Z) (summarize_with_openai summarize_with_gemini : Adapter)
    (payload : SummaryRequest) : Handler Returned :=
  try_except
    (let user_query := userQuery payload in
     let notes_id := notesId payload in
     let model_name := modelName payload in
     if negb (truthy user_query) || negb (truthy notes_id)
     then mret (JSONResponse HTTP_400_BAD_REQUEST
                  (ErrorBody "userQuery and notesId are required"))
     else
       (* past the check both fields hold a non-empty string *)
       let user_query := default "" user_query in
       let notes_id := default "" notes_id in
       NOTES ← read_NOTES;
       match next_match notes_id NOTES with
       | None => mret (JSONResponse HTTP_404_NOT_FOUND (ErrorBody "Note not found"))
       | Some note =>
         let finish (llm_res : option string) : Handler Returned :=
           let summary := if truthy llm_res then default "" llm_res
                          else "No summary generated" in
           let newNote := {| id := str now_ms; text := summary |} in
           _ ← NOTES_append newNote;
           mret (Plain (SummaryResponse summary)) in
         if decide (model_name = Some "openai")
         then llm_res ← call (summarize_with_openai (text note) user_query); finish llm_res
         else if decide (model_name = Some "gemini")
         then llm_res ← call (summarize_with_gemini (text note) user_query); finish llm_res
         else mret (JSONResponse HTTP_400_BAD_REQUEST
                      (ErrorBody "Invalid modelName. Use 'openai' or 'gemini'."))
       end)
    (mret (JSONResponse HTTP_500_INTERNAL_SERVER_ERROR
             (ErrorBody "Failed to summarize note"))).

(** ** The framework around the handlers *)

(** What FastAPI sends for a handler's outcome: a plain value goes out with
    the decorator's [status_code] (200 when the decorator names none), a
    [JSONResponse] as it is, an [HTTPException] as its status code with the
    body [{"detail": ...}], and any other exception as a 500. *)
Definition respond (default_status : Z) (o : Outcome Returned) : Response :=
  match o with
  | Return (Plain v) => {| status := default_status; body := v |}
  | Return (JSONResponse c b) => {| status := c; body := b |}
  | Raise (HTTPException c d) => {| status := c; body := DetailBody d |}
  | Raise Exception =>
      {| status := HTTP_500_INTERNAL_SERVER_ERROR; body := TextBody "Internal Server Error" |}
  end.

(** The requests of the HTTP surface, each with what the environment
    supplies while it is served (the clock reading, the two adapters). *)
Inductive Request : Type :=
  | GET_root
  | GET_notes
  | POST_notes (now_ms : Z) (payload : CreateNoteRequest)
  | DELETE_note (note_id : string)
  | POST_summary (now_ms : Z) (summarize_with_openai summarize_with_gemini : Adapter)
      (payload : SummaryRequest).

(** The route table: the handler of each request and its decorator's status. *)
Definition route (r : Request) : Z * Handler Returned :=
  match r with
  | GET_root => (HTTP_200_OK, root)
  | GET_notes => (HTTP_200_OK, list_notes)
  | POST_notes now_ms payload => (HTTP_201_CREATED, create_note now_ms payload)
  | DELETE_note note_id => (HTTP_204_NO_CONTENT, delete_note note_id)
  | POST_summary now_ms openai gemini payload =>
      (HTTP_200_OK, summarize_note now_ms openai gemini payload)
  end.

(** Serving one request: the response sent and the note list afterwards. *)
Definition serve (r : Request) (NOTES : Store) : Response * Store :=
  let '(default_status, handler) := route r in
  let '(o, NOTES') := handler NOTES in
  (respond default_status o, NOTES').

(** The note list after serving the requests [rs] one after the other. *)
Definition run (rs : list Request) (NOTES : Store) : Store :=
  foldl (λ NOTES r, snd (serve r NOTES)) NOTES rs.

(** The states the process can be in: those a sequence of requests leads to
    from the empty list it starts with. *)
Definition reachable (NOTES : Store) : Prop :=
  ∃ rs, NOTES = run rs NOTES_initial.

(** The clock reading a request consumes, when it consumes one. *)
Definition clock_of (r : Request) : option Z :=
  match r with
  | POST_notes now_ms _ | POST_summary now_ms _ _ _ => Some now_ms
  | GET_root | GET_notes | DELETE_note _ => None
  end.

(** The clock shows a time at or after the epoch. *)
Definition after_epoch (r : Request) : Prop :=
  match clock_of r with
  | Some now_ms => (0 ≤ now_ms)%Z
  | None => True
  end.

(** ** All-digit strings *)

Definition is_digit (c : ascii) : bool :=
  let n := N_of_ascii c in ((48 <=? n) && (n <=? 57))%N.

Fixpoint all_digits (s : string) : bool :=
  match s with
  | EmptyString => true
  | String c s' => is_digit c && all_digits s'
  end.

(** Python's [s.isdigit()] on ASCII text: at least one character, and every
    character one of 0-9. *)
Definition isdigit (s : string) : bool :=
  match s with
  | EmptyString => false
  | _ => all_digits s
  end.

(** Every id of the list satisfies [P]. *)
Definition ids_satisfy (P : string → Prop) (NOTES : Store) : Prop :=
  Forall (λ n, P (id n)) NOTES.

(** The rendered clock reading of the request, if it has one, satisfies [P]. *)
Definition clock_satisfies (P : string → Prop) (r : Request) : Prop :=
  match clock_of r with
  | Some now_ms => P (str now_ms)
  | None => True
  end.

(** Every note of the list carries an all-digit id. *)
Definition digit_ids (NOTES : Store) : Prop :=
  ids_satisfy (λ s, isdigit s = true) NOTES.

(** ** Notions the properties are stated with *)

(** The notes whose id differs from [note_id], and those whose id is
    [note_id], each in the order of the list. *)
Definition others (note_id : string) (NOTES : Store) : Store :=
  filter (λ n, id n ≠ note_id) NOTES.
Definition matching (note_id : string) (NOTES : Store) : Store :=
  filter (λ n, id n = note_id) NOTES.

(** The adapter a [modelName] selects, if it is one of the two names. *)
Definition selected (model_name : option string)
    (summarize_with_openai summarize_with_gemini : Adapter) : option Adapter :=
  if decide (model_name = Some "openai") then Some summarize_with_openai
  else if decide (model_name = Some "gemini") then Some summarize_with_gemini
  else None.

(** The requests whose handler has an [append]: the two POSTs. *)
Definition may_append (r : Request) : bool :=
  match r with
  | POST_notes _ _ | POST_summary _ _ _ _ => true
  | GET_root | GET_notes | DELETE_note _ => false
  end.

(** The clock readings of a sequence of requests, in the order served. *)
Definition clocks (rs : list Request) : list Z := omap clock_of rs.

(** How many requests of a sequence may append a note. *)
Definition posts (rs : list Request) : nat :=
  length (filter (λ r, may_append r = true) rs).

(** Unfolds a served request down to its effect on the list. *)
Ltac unfold_handlers :=
  unfold serve, route, summarize_note, create_note, list_notes, delete_note,
    try_except, call, raise, mbind, mret, Handler_bind, Handler_ret,
    read_NOTES, assign_NOTES, NOTES_append, respond.

(** ** Trying the handlers on small inputs *)

Definition never : Adapter := λ _ _, Raises.
Definition echo : Adapter := λ t _, Returns (Some t).
Definition silent : Adapter := λ _ _, Returns None.
Definition blank : Adapter := λ _ _, Returns (Some "").

Example str_1700 : str 1700000000123 = "1700000000123".
Proof. reflexivity. Qed.

Example str_neg : str (-12) = "-12".
Proof. reflexivity. Qed.

Example create_then_list :
  serve GET_notes (run [POST_notes 5 (mkCreateNoteRequest "hello")] NOTES_initial)
  = ({| status := 200; body := NotesBody [mkNote "5" "hello"] |}, [mkNote "5" "hello"]).
Proof. reflexivity. Qed.

Example delete_twins :
  serve (DELETE_note "5") [mkNote "5" "a"; mkNote "6" "b"; mkNote "5" "c"]
  = ({| status := 204; body := Null |}, [mkNote "6" "b"]).
Proof. reflexivity. Qed.

Example delete_missing :
  serve (DELETE_note "7") [mkNote "5" "a"]
  = ({| status := 404; body := DetailBody "Note not found" |}, [mkNote "5" "a"]).
Proof. reflexivity. Qed.

Example summary_echo :
  serve (POST_summary 9 echo never (mkSummaryRequest (Some "q") (Some "5") (Some "openai")))
        [mkNote "5" "a"]
  = ({| status := 200; body := SummaryResponse "a" |}, [mkNote "5" "a"; mkNote "9" "a"]).
Proof. reflexivity. Qed.

(** ** Decimal rendering *)

Lemma is_digit_pretty_N_char (d : N) : is_digit (pretty_N_char d) = true.
Proof.
  destruct d as [|p]; [reflexivity|].
  do 4 (destruct p as [p|p|]; try reflexivity).
Qed.

Lemma all_digits_pretty_N_go (x : N) (s : string) :
  all_digits s = true → all_digits (pretty_N_go x s) = true.
Proof.
  revert s. induction x as [x IH] using (well_founded_induction N.lt_wf_0).
  intros s Hs. destruct (N.eq_dec x 0%N) as [->|Hx].
  - by rewrite pretty_N_go_0.
  - rewrite pretty_N_go_step by lia. apply IH.
    + apply N.div_lt; lia.
    + simpl. by rewrite is_digit_pretty_N_char, Hs.
Qed.

Lemma pretty_N_go_nonempty (x : N) (s : string) :
  s ≠ "" → pretty_N_go x s ≠ "".
Proof.
  revert s. induction x as [x IH] using (well_founded_induction N.lt_wf_0).
  intros s Hs. destruct (N.eq_dec x 0%N) as [->|Hx].
  - by rewrite pretty_N_go_0.
  - rewrite pretty_N_go_step by lia. apply IH; [apply N.div_lt; lia | done].
Qed.

Lemma pretty_N_nonempty (x : N) : pretty x ≠ "".
Proof.
  unfold pretty, pretty_N. case_decide; [done|].
  rewrite pretty_N_go_step by lia. by apply pretty_N_go_nonempty.
Qed.

Lemma isdigit_all_digits (s : string) :
  s ≠ "" → all_digits s = true → isdigit s = true.
Proof. by destruct s. Qed.

Lemma isdigit_pretty_N (x : N) : isdigit (pretty x) = true.
Proof.
  apply isdigit_all_digits; [apply pretty_N_nonempty|].
  unfold pretty, pretty_N. case_decide; [done|].
  by apply all_digits_pretty_N_go.
Qed.

(** [str] of a number that is not negative is all digits. *)
Lemma isdigit_str (n : Z) : (0 ≤ n)%Z → isdigit (str n) = true.
Proof.
  intros Hn. destruct n as [|p|p]; [done| |lia].
  apply (isdigit_pretty_N (N.pos p)).
Qed.

(** [str] never yields the empty string. *)
Lemma str_nonempty (n : Z) : str n ≠ "".
Proof.
  destruct n as [|p|p]; [done| |done].
  apply (pretty_N_nonempty (N.pos p)).
Qed.

(** The sign keeps a negative number's rendering from being all digits. *)
Lemma isdigit_str_negative (n : Z) : (n < 0)%Z → isdigit (str n) = false.
Proof. intros Hn. destruct n as [|p|p]; [lia|lia|done]. Qed.

(** ** Filtering by id *)

Section by_id.
Context (note_id : string).

Lemma others_matching_length NOTES :
  length (others note_id NOTES) + length (matching note_id NOTES) = length NOTES.
Proof.
  unfold others, matching. induction NOTES as [|n NOTES IH]; [done|].
  rewrite !filter_cons. repeat case_decide; simpl; try lia; tauto.
Qed.

Lemma matching_nil_iff NOTES :
  matching note_id NOTES = [] ↔ ∀ n, n ∈ NOTES → id n ≠ note_id.
Proof.
  unfold matching. split.
  - intros Hnil n Hn Hid. by apply (filter_nil_not_elem_of _ NOTES n Hnil Hid).
  - intros Hno. induction NOTES as [|n NOTES IH]; [done|].
    rewrite filter_cons_False by (apply Hno; left).
    apply IH. intros m Hm. apply Hno. by right.
Qed.

Lemma others_same_length_iff NOTES :
  length (others note_id NOTES) = length NOTES ↔ ∀ n, n ∈ NOTES → id n ≠ note_id.
Proof.
  rewrite <-matching_nil_iff. pose proof (others_matching_length NOTES).
  split; intros Heq.
  - apply length_zero_iff_nil. lia.
  - rewrite Heq in H. simpl in H. lia.
Qed.

Lemma others_id NOTES :
  (∀ n, n ∈ NOTES → id n ≠ note_id) → others note_id NOTES = NOTES.
Proof.
  intros Hno. unfold others. induction NOTES as [|n NOTES IH]; [done|].
  rewrite filter_cons_True by (apply Hno; left).
  f_equal. apply IH. intros m Hm. apply Hno. by right.
Qed.

Lemma elem_of_others n NOTES : n ∈ others note_id NOTES ↔ id n ≠ note_id ∧ n ∈ NOTES.
Proof. apply (list_elem_of_filter (λ m, id m ≠ note_id)). Qed.

Lemma others_sublist NOTES : others note_id NOTES `sublist_of` NOTES.
Proof. unfold others. apply sublist_filter. Qed.

(** With a single matching note, what is left is the list with that one
    position cut out. *)
Lemma others_single NOTES :
  length (matching note_id NOTES) = 1 →
  ∃ l1 n l2, NOTES = l1 ++ n :: l2 ∧ id n = note_id ∧ others note_id NOTES = l1 ++ l2.
Proof.
  unfold others, matching. induction NOTES as [|m NOTES IH]; [done|].
  rewrite !filter_cons. destruct (decide (id m = note_id)) as [Hm|Hm].
  - rewrite decide_False by tauto. simpl. intros [= Hlen].
    exists [], m, NOTES. split_and!; [done..|].
    apply others_id, matching_nil_iff. by apply length_zero_iff_nil.
  - rewrite decide_True by done. intros Hlen.
    destruct (IH Hlen) as (l1 & n & l2 & -> & Hn & Hrest).
    exists (m :: l1), n, l2. split_and!; [done..|]. simpl. by f_equal.
Qed.
End by_id.

(** ** Running the handlers *)

Lemma serve_list NOTES :
  serve GET_notes NOTES = ({| status := 200; body := NotesBody NOTES |}, NOTES).
Proof. reflexivity. Qed.

Lemma serve_create now_ms payload NOTES :
  let note := {| id := str now_ms; text := payload_text payload |} in
  serve (POST_notes now_ms payload) NOTES
  = ({| status := 201; body := NoteBody note |}, NOTES ++ [note]).
Proof. reflexivity. Qed.

Lemma delete_note_run note_id NOTES :
  delete_note note_id NOTES
  = (if decide (length (others note_id NOTES) = length NOTES)
     then Raise (HTTPException HTTP_404_NOT_FOUND "Note not found")
     else Return (JSONResponse HTTP_204_NO_CONTENT Null),
     others note_id NOTES).
Proof. unfold_handlers. unfold others. simpl. by case_decide. Qed.

Lemma serve_delete_absent note_id NOTES :
  (∀ n, n ∈ NOTES → id n ≠ note_id) →
  serve (DELETE_note note_id) NOTES
  = ({| status := 404; body := DetailBody "Note not found" |}, NOTES).
Proof.
  intros Hno. unfold serve, route. rewrite delete_note_run.
  rewrite decide_True by by apply others_same_length_iff.
  by rewrite others_id.
Qed.

Lemma serve_delete_present note_id NOTES :
  (∃ n, n ∈ NOTES ∧ id n = note_id) →
  serve (DELETE_note note_id) NOTES
  = ({| status := 204; body := Null |}, others note_id NOTES).
Proof.
  intros (n & Hn & Hid). unfold serve, route. rewrite delete_note_run.
  rewrite decide_False; [done|].
  rewrite others_same_length_iff. intros Hno. by apply (Hno n).
Qed.

Lemma serve_delete_store note_id NOTES :
  (serve (DELETE_note note_id) NOTES).2 = others note_id NOTES.
Proof. unfold serve, route. by rewrite delete_note_run. Qed.

(** A delete answers 204 only when some note had the id. *)
Lemma serve_delete_204 note_id NOTES :
  status (serve (DELETE_note note_id) NOTES).1 = 204%Z →
  ∃ n, n ∈ NOTES ∧ id n = note_id.
Proof.
  intros Hst.
  destruct (decide (matching note_id NOTES = [])) as [Hnil|Hne].
  - rewrite serve_delete_absent in Hst by by apply matching_nil_iff. done.
  - destruct (matching note_id NOTES) as [|n l] eqn:Hm; [done|].
    exists n. assert (n ∈ matching note_id NOTES) as Hin by (rewrite Hm; left).
    apply (list_elem_of_filter (λ m, id m = note_id)) in Hin. tauto.
Qed.

Lemma matching_others note_id NOTES : matching note_id (others note_id NOTES) = [].
Proof.
  apply matching_nil_iff. intros n Hn. by apply elem_of_others in Hn as [? _].
Qed.

Lemma matching_nonempty note_id NOTES :
  (∃ n, n ∈ NOTES ∧ id n = note_id) → 0 < length (matching note_id NOTES).
Proof.
  intros (n & Hn & Hid).
  destruct (matching note_id NOTES) as [|m l] eqn:Hm; [|simpl; lia].
  exfalso. by apply (proj1 (matching_nil_iff note_id NOTES) Hm n).
Qed.

(** ** The lookup of [summarize_note] *)

Lemma next_match_None notes_id NOTES :
  next_match notes_id NOTES = None ↔ ∀ n, n ∈ NOTES → id n ≠ notes_id.
Proof.
  unfold next_match. rewrite fmap_None, list_find_None, Forall_forall. done.
Qed.

Lemma next_match_Some notes_id NOTES note :
  next_match notes_id NOTES = Some note → note ∈ NOTES ∧ id note = notes_id.
Proof.
  unfold next_match. intros ([i n] & Hfind & ->)%fmap_Some.
  apply list_find_Some in Hfind as (Hi & Hid & _).
  split; [by eapply list_elem_of_lookup_2 | done].
Qed.

Lemma next_match_present notes_id NOTES :
  (∃ n, n ∈ NOTES ∧ id n = notes_id) → is_Some (next_match notes_id NOTES).
Proof.
  intros (n & Hn & Hid). unfold next_match. apply fmap_is_Some.
  by apply (list_find_elem_of (λ m, id m = notes_id) NOTES n).
Qed.

Lemma truthy_Some (v : option string) :
  truthy v = true ↔ ∃ s, v = Some s ∧ s ≠ "".
Proof.
  destruct v as [s|]; simpl.
  - rewrite bool_decide_eq_true. split; [by eauto|].
    by intros (s' & [= <-] & Hs).
  - split; [done|]. by intros (s & [=] & _).
Qed.

(** ** Running [summarize_note] *)

Section summarize.
Context (now_ms : Z) (openai gemini : Adapter) (payload : SummaryRequest).
Context (NOTES : Store).

Lemma serve_summary_required :
  truthy (userQuery payload) = false ∨ truthy (notesId payload) = false →
  serve (POST_summary now_ms openai gemini payload) NOTES
  = ({| status := 400; body := ErrorBody "userQuery and notesId are required" |}, NOTES).
Proof. unfold_handlers. by intros [-> | ->]; rewrite ?orb_true_r. Qed.

Lemma serve_summary_not_found :
  truthy (userQuery payload) = true →
  truthy (notesId payload) = true →
  (∀ n, n ∈ NOTES → Some (id n) ≠ notesId payload) →
  serve (POST_summary now_ms openai gemini payload) NOTES
  = ({| status := 404; body := ErrorBody "Note not found" |}, NOTES).
Proof.
  intros Hq Hn Hno. unfold_handlers. rewrite Hq, Hn. simpl.
  apply truthy_Some in Hn as (notes_id & Hn & _). rewrite Hn in *. simpl.
  rewrite (proj2 (next_match_None notes_id NOTES)); [done|].
  intros n Hin Hid. apply (Hno n Hin). by rewrite Hid.
Qed.

Lemma serve_summary_found user_query notes_id note :
  userQuery payload = Some user_query → user_query ≠ "" →
  notesId payload = Some notes_id → notes_id ≠ "" →
  next_match notes_id NOTES = Some note →
  serve (POST_summary now_ms openai gemini payload) NOTES
  = match selected (modelName payload) openai gemini with
    | None =>
        ({| status := 400;
            body := ErrorBody "Invalid modelName. Use 'openai' or 'gemini'." |}, NOTES)
    | Some adapter =>
        match adapter (text note) user_query with
        | Raises =>
            ({| status := 500; body := ErrorBody "Failed to summarize note" |}, NOTES)
        | Returns llm_res =>
            let summary := if truthy llm_res then default "" llm_res
                           else "No summary generated" in
            ({| status := 200; body := SummaryResponse summary |},
             NOTES ++ [ {| id := str now_ms; text := summary |} ])
        end
    end.
Proof.
  intros Hq Hq' Hn Hn' Hfind. unfold_handlers. unfold selected.
  rewrite Hq, Hn. simpl. rewrite !bool_decide_eq_true_2 by done. simpl.
  rewrite Hfind.
  repeat case_decide; [| |done].
  - by destruct (openai (text note) user_query).
  - by destruct (gemini (text note) user_query).
Qed.

(** Whatever the request, the handler leaves the list as it was or appends
    one note whose id is the rendered clock reading. *)
Lemma serve_summary_store :
  let NOTES' := (serve (POST_summary now_ms openai gemini payload) NOTES).2 in
  NOTES' = NOTES ∨ ∃ summary, NOTES' = NOTES ++ [ {| id := str now_ms; text := summary |} ].
Proof.
  destruct (truthy (userQuery payload)) eqn:Hq;
    [|left; rewrite serve_summary_required by auto; done].
  destruct (truthy (notesId payload)) eqn:Hn;
    [|left; rewrite serve_summary_required by auto; done].
  pose proof Hq as (user_query & Hq1 & Hq2)%truthy_Some.
  pose proof Hn as (notes_id & Hn1 & Hn2)%truthy_Some.
  destruct (next_match notes_id NOTES) as [note|] eqn:Hfind.
  - rewrite (serve_summary_found user_query notes_id note) by done.
    destruct (selected _ _ _) as [adapter|]; [|by left].
    destruct (adapter _ _) as [llm_res|]; [|by left].
    right. by eexists.
  - left. rewrite serve_summary_not_found; [done..|].
    intros n Hin Hid. rewrite Hn1 in Hid. injection Hid as Hid.
    by apply (proj1 (next_match_None notes_id NOTES) Hfind n).
Qed.
End summarize.

(** ** Invariants of the note list *)

Section id_invariant.
Context (P : string → Prop).

Lemma serve_ids r NOTES :
  clock_satisfies P r → ids_satisfy P NOTES → ids_satisfy P (serve r NOTES).2.
Proof.
  unfold ids_satisfy, clock_satisfies. intros Hr Hinv. destruct r as [| |now p|note_id|now o g p]; simpl in Hr.
  - done.
  - done.
  - rewrite serve_create. simpl. apply Forall_app. split; [done|].
    by apply Forall_singleton.
  - rewrite serve_delete_store. apply Forall_forall.
    intros n [_ Hn]%elem_of_others. by apply (proj1 (Forall_forall _ _) Hinv).
  - destruct (serve_summary_store now o g p NOTES) as [-> | [summary ->]]; [done|].
    apply Forall_app. split; [done|]. by apply Forall_singleton.
Qed.

Lemma run_ids rs NOTES :
  Forall (clock_satisfies P) rs → ids_satisfy P NOTES → ids_satisfy P (run rs NOTES).
Proof.
  unfold run. intros Hrs. revert NOTES.
  induction Hrs as [|r rs Hr _ IH]; intros NOTES Hinv; [done|].
  simpl. apply IH. by apply serve_ids.
Qed.
End id_invariant.

Lemma run_app rs1 rs2 NOTES : run (rs1 ++ rs2) NOTES = run rs2 (run rs1 NOTES).
Proof. unfold run. apply foldl_app. Qed.

(** No note of a reachable list has the empty id. *)
Lemma reachable_ids_nonempty NOTES :
  reachable NOTES → Forall (λ n, id n ≠ "") NOTES.
Proof.
  intros [rs ->]. apply (run_ids (λ s, s ≠ "")); [|by constructor].
  apply Forall_forall. intros r _. unfold clock_satisfies.
  destruct (clock_of r); [apply str_nonempty | done].
Qed.

Lemma reachable_present_nonempty NOTES notes_id :
  reachable NOTES → (∃ n, n ∈ NOTES ∧ id n = notes_id) → notes_id ≠ "".
Proof.
  intros Hr (n & Hn & <-).
  by apply (proj1 (Forall_forall _ _) (reachable_ids_nonempty NOTES Hr) n).
Qed.

Lemma reachable_initial : reachable NOTES_initial.
Proof. by exists []. Qed.

Lemma reachable_serve r NOTES : reachable NOTES → reachable (serve r NOTES).2.
Proof. intros [rs ->]. exists (rs ++ [r]). by rewrite run_app. Qed.

Lemma reachable_run rs : reachable (run rs NOTES_initial).
Proof. by exists rs. Qed.

Lemma run_creates (creates : list (Z * CreateNoteRequest)) NOTES :
  run (map (λ c, POST_notes c.1 c.2) creates) NOTES
  = NOTES ++ map (λ c, {| id := str c.1; text := payload_text c.2 |}) creates.
Proof.
  revert NOTES. induction creates as [|c creates IH]; intros NOTES.
  - by rewrite app_nil_r.
  - change (run (map _ (c :: creates)) NOTES)
      with (run (map (λ c, POST_notes c.1 c.2) creates) (serve (POST_notes c.1 c.2) NOTES).2).
    rewrite IH, serve_create. simpl. by rewrite <-app_assoc.
Qed.

Lemma after_epoch_digit_clock rs :
  Forall after_epoch rs → Forall (clock_satisfies (λ s, isdigit s = true)) rs.
Proof.
  intros Hrs. eapply Forall_impl; [exact Hrs|].
  intros r. unfold after_epoch, clock_satisfies.
  destruct (clock_of r); [apply isdigit_str | done].
Qed.

(** * The properties of the service *)

(** ** Deleting *)

(** C1, as stated, fails: two notes created within the same millisecond share
    their id, and one DELETE of that id answers 204 and removes both, so the
    list shrinks by two and not by one. *)
Lemma C1_same_millisecond_twins :
  let NOTES := run [POST_notes 5 (mkCreateNoteRequest "a");
                    POST_notes 5 (mkCreateNoteRequest "b")] NOTES_initial in
  let out := serve (DELETE_note "5") NOTES in
  (∃ n, n ∈ NOTES ∧ id n = "5") ∧
  status out.1 = 204%Z ∧ length NOTES = 2 ∧ length out.2 = 0 ∧
  length out.2 + 1 ≠ length NOTES.
Proof.
  simpl. split_and!; [|reflexivity|reflexivity|reflexivity|vm_compute; lia].
  exists (mkNote "5" "a"). split; [left | reflexivity].
Qed.

(** C1 (amended): when at least one note of the list has the given id,
    DELETE /api/notes/{id} answers 204 and removes every note with that id and
    no other note, so the list shrinks by the number of matching notes, which
    is at least one; when exactly one note has the id, exactly that one is cut
    out of the list. *)
Theorem C1_delete_existing_removes_every_match (note_id : string) (NOTES : Store) :
  (∃ n, n ∈ NOTES ∧ id n = note_id) →
  let out := serve (DELETE_note note_id) NOTES in
  out.1 = {| status := 204; body := Null |} ∧
  out.2 = others note_id NOTES ∧
  0 < length (matching note_id NOTES) ∧
  length out.2 + length (matching note_id NOTES) = length NOTES ∧
  (length (matching note_id NOTES) = 1 →
   ∃ l1 n l2, NOTES = l1 ++ n :: l2 ∧ id n = note_id ∧ out.2 = l1 ++ l2).
Proof.
  intros Hex out. subst out. rewrite serve_delete_present by done. simpl.
  split_and!; [done|done|by apply matching_nonempty|apply others_matching_length|].
  apply others_single.
Qed.

Lemma C1_delete_existing_witness :
  let NOTES := [mkNote "5" "a"; mkNote "6" "b"; mkNote "5" "c"] in
  (∃ n, n ∈ NOTES ∧ id n = "5") ∧
  (serve (DELETE_note "5") NOTES).2 = others "5" NOTES.
Proof.
  assert (∃ n, n ∈ [mkNote "5" "a"; mkNote "6" "b"; mkNote "5" "c"] ∧ id n = "5") as Hex.
  { exists (mkNote "5" "a"). split; [left | reflexivity]. }
  split; [exact Hex|].
  exact (proj1 (proj2 (C1_delete_existing_removes_every_match "5" _ Hex))).
Defined.

(** C6: when no note of the list has the given id, DELETE /api/notes/{id}
    answers 404 with the error body [{"detail": "Note not found"}] and leaves
    the list as it was, the same notes in the same order. *)
Theorem C6_delete_missing_404_unchanged (note_id : string) (NOTES : Store) :
  (∀ n, n ∈ NOTES → id n ≠ note_id) →
  serve (DELETE_note note_id) NOTES
  = ({| status := 404; body := DetailBody "Note not found" |}, NOTES).
Proof. apply serve_delete_absent. Qed.

Lemma C6_delete_missing_witness :
  (∀ n, n ∈ [mkNote "5" "a"; mkNote "6" "b"] → id n ≠ "7") ∧
  serve (DELETE_note "7") [mkNote "5" "a"; mkNote "6" "b"]
  = ({| status := 404; body := DetailBody "Note not found" |},
     [mkNote "5" "a"; mkNote "6" "b"]).
Proof.
  assert (∀ n, n ∈ [mkNote "5" "a"; mkNote "6" "b"] → id n ≠ "7") as Hno.
  { intros n Hn. apply list_elem_of_In in Hn. simpl in Hn.
    destruct Hn as [<-|[<-|[]]]; discriminate. }
  split; [exact Hno|].
  exact (C6_delete_missing_404_unchanged "7" _ Hno).
Defined.

(** C9: whenever DELETE /api/notes/{id} answers 204, no note with the given
    id is left in the list: every note sharing the id went in that one call
    (and there was at least one), while the notes with other ids all stay, in
    their relative order. *)
Theorem C9_delete_204_leaves_no_match (note_id : string) (NOTES : Store) :
  status (serve (DELETE_note note_id) NOTES).1 = 204%Z →
  let NOTES' := (serve (DELETE_note note_id) NOTES).2 in
  (∀ n, n ∈ NOTES' → id n ≠ note_id) ∧
  matching note_id NOTES' = [] ∧
  0 < length (matching note_id NOTES) ∧
  length NOTES' + length (matching note_id NOTES) = length NOTES ∧
  NOTES' `sublist_of` NOTES ∧
  NOTES' = others note_id NOTES.
Proof.
  intros Hst NOTES'. subst NOTES'. rewrite serve_delete_store.
  split_and!.
  - intros n Hn. by apply elem_of_others in Hn as [? _].
  - apply matching_others.
  - by apply matching_nonempty, serve_delete_204.
  - apply others_matching_length.
  - apply others_sublist.
  - done.
Qed.

Lemma C9_delete_204_witness :
  let NOTES := [mkNote "5" "a"; mkNote "6" "b"; mkNote "5" "c"; mkNote "7" "d"] in
  status (serve (DELETE_note "5") NOTES).1 = 204%Z ∧
  (serve (DELETE_note "5") NOTES).2 = [mkNote "6" "b"; mkNote "7" "d"] ∧
  ∀ n, n ∈ (serve (DELETE_note "5") NOTES).2 → id n ≠ "5".
Proof.
  split; [reflexivity|]. split; [reflexivity|].
  exact (proj1 (C9_delete_204_leaves_no_match "5"
    [mkNote "5" "a"; mkNote "6" "b"; mkNote "5" "c"; mkNote "7" "d"] eq_refl)).
Defined.

(** ** Summarising *)

(** C2, as stated, fails: with [modelName = "xyz"], a non-empty query and a
    [notesId] that no note carries, the lookup comes first and the answer is
    404, not 400. *)
Lemma C2_unknown_model_unknown_note_404 :
  let payload := mkSummaryRequest (Some "q") (Some "1") (Some "xyz") in
  let out := serve (POST_summary 9 echo echo payload) NOTES_initial in
  modelName payload = Some "xyz" ∧
  out.1 = {| status := 404; body := ErrorBody "Note not found" |} ∧
  status out.1 ≠ 400%Z.
Proof. by split_and!. Qed.

(** C2 (amended): for a [modelName] other than "openai" and "gemini", whatever
    the other fields and the list hold, the list is left unchanged and the
    answer is 400, except that it is 404 when [userQuery] and [notesId] are
    both non-empty and no note has the id [notesId]. *)
Theorem C2_unknown_model_400_or_404 (now_ms : Z) (openai gemini : Adapter)
    (payload : SummaryRequest) (NOTES : Store) :
  modelName payload ≠ Some "openai" →
  modelName payload ≠ Some "gemini" →
  let out := serve (POST_summary now_ms openai gemini payload) NOTES in
  out.2 = NOTES ∧
  (status out.1 = 400%Z ∨ status out.1 = 404%Z) ∧
  (status out.1 = 404%Z ↔
   truthy (userQuery payload) = true ∧ truthy (notesId payload) = true ∧
   ∀ n, n ∈ NOTES → Some (id n) ≠ notesId payload).
Proof.
  intros Ho Hg out. subst out.
  destruct (truthy (userQuery payload)) eqn:Hq.
  2: { rewrite serve_summary_required by auto. simpl.
       split_and!; [done|by left|]. split; [done|]. by intros ([=] & _). }
  destruct (truthy (notesId payload)) eqn:Hn.
  2: { rewrite serve_summary_required by auto. simpl.
       split_and!; [done|by left|]. split; [done|]. by intros (_ & [=] & _). }
  pose proof Hq as (user_query & Hq1 & Hq2)%truthy_Some.
  pose proof Hn as (notes_id & Hn1 & Hn2)%truthy_Some.
  destruct (next_match notes_id NOTES) as [note|] eqn:Hfind.
  - rewrite (serve_summary_found _ _ _ _ _ user_query notes_id note) by done.
    unfold selected. rewrite !decide_False by done. simpl.
    split_and!; [done|by left|]. split; [done|]. intros (_ & _ & Hno).
    apply next_match_Some in Hfind as [Hin Hid].
    destruct (Hno note Hin). by rewrite Hid.
  - assert (∀ n, n ∈ NOTES → Some (id n) ≠ notesId payload) as Hno.
    { intros n Hin Hid. rewrite Hn1 in Hid. injection Hid as Hid.
      by apply (proj1 (next_match_None notes_id NOTES) Hfind n). }
    rewrite serve_summary_not_found by done. simpl.
    split_and!; [done|by right|]. by split.
Qed.

Lemma C2_unknown_model_witness :
  let payload := mkSummaryRequest (Some "q") (Some "5") (Some "xyz") in
  modelName payload ≠ Some "openai" ∧ modelName payload ≠ Some "gemini" ∧
  (serve (POST_summary 9 echo echo payload) [mkNote "5" "a"]).2 = [mkNote "5" "a"].
Proof.
  assert (Some "xyz" ≠ Some "openai") as Ho by discriminate.
  assert (Some "xyz" ≠ Some "gemini") as Hg by discriminate.
  split; [exact Ho|]. split; [exact Hg|].
  exact (proj1 (C2_unknown_model_400_or_404 9 echo echo
    (mkSummaryRequest (Some "q") (Some "5") (Some "xyz")) [mkNote "5" "a"] Ho Hg)).
Defined.

(** C3, as stated, fails: the check of step 1 comes before the lookup, so a
    request with an empty [userQuery] and a [notesId] that no note carries is
    answered 400, not 404. *)
Lemma C3_empty_query_400 :
  let payload := mkSummaryRequest (Some "") (Some "1") (Some "openai") in
  let out := serve (POST_summary 9 echo echo payload) NOTES_initial in
  (∀ n, n ∈ NOTES_initial → Some (id n) ≠ notesId payload) ∧
  out.1 = {| status := 400; body := ErrorBody "userQuery and notesId are required" |} ∧
  status out.1 ≠ 404%Z.
Proof. split_and!; [|done|done]. by intros n Hn%elem_of_nil. Qed.

(** C3 (amended): for a request with non-empty [userQuery] and [notesId]
    whose [notesId] is the id of no note of the list, the answer is 404 with
    the body [{"error": "Note not found"}] and the list is left unchanged; the
    [modelName] is not looked at, so this holds for an invalid one too. *)
Theorem C3_unknown_note_404 (now_ms : Z) (openai gemini : Adapter)
    (payload : SummaryRequest) (NOTES : Store) :
  truthy (userQuery payload) = true →
  truthy (notesId payload) = true →
  (∀ n, n ∈ NOTES → Some (id n) ≠ notesId payload) →
  serve (POST_summary now_ms openai gemini payload) NOTES
  = ({| status := 404; body := ErrorBody "Note not found" |}, NOTES).
Proof. apply serve_summary_not_found. Qed.

Lemma C3_unknown_note_witness :
  let payload := mkSummaryRequest (Some "q") (Some "7") (Some "xyz") in
  truthy (userQuery payload) = true ∧ truthy (notesId payload) = true ∧
  (∀ n, n ∈ [mkNote "5" "a"] → Some (id n) ≠ notesId payload) ∧
  serve (POST_summary 9 echo echo payload) [mkNote "5" "a"]
  = ({| status := 404; body := ErrorBody "Note not found" |}, [mkNote "5" "a"]).
Proof.
  assert (∀ n, n ∈ [mkNote "5" "a"] → Some (id n) ≠ Some "7") as Hno.
  { intros n Hn. apply list_elem_of_In in Hn. simpl in Hn.
    destruct Hn as [<-|[]]; discriminate. }
  split; [reflexivity|]. split; [reflexivity|]. split; [exact Hno|].
  exact (C3_unknown_note_404 9 echo echo
    (mkSummaryRequest (Some "q") (Some "7") (Some "xyz")) [mkNote "5" "a"]
    eq_refl eq_refl Hno).
Defined.

(** C4: in any state the service can reach, for a request with a non-empty
    [userQuery], a [notesId] that is the id of a note of the list and a valid
    [modelName], if the selected adapter raises on the note's text and the
    query, the answer is 500 with the body
    [{"error": "Failed to summarize note"}] and the list is left unchanged. *)
Theorem C4_adapter_raises_500_unchanged (now_ms : Z) (openai gemini : Adapter)
    (payload : SummaryRequest) (NOTES : Store)
    (user_query notes_id : string) (adapter : Adapter) :
  reachable NOTES →
  userQuery payload = Some user_query → user_query ≠ "" →
  notesId payload = Some notes_id → (∃ n, n ∈ NOTES ∧ id n = notes_id) →
  selected (modelName payload) openai gemini = Some adapter →
  (∀ note, next_match notes_id NOTES = Some note →
           adapter (text note) user_query = Raises) →
  serve (POST_summary now_ms openai gemini payload) NOTES
  = ({| status := 500; body := ErrorBody "Failed to summarize note" |}, NOTES).
Proof.
  intros Hreach Hq Hq' Hn Hex Hsel Hraise.
  pose proof (reachable_present_nonempty _ _ Hreach Hex) as Hn'.
  destruct (next_match_present _ _ Hex) as [note Hfind].
  rewrite (serve_summary_found _ _ _ _ _ user_query notes_id note) by done.
  by rewrite Hsel, (Hraise note Hfind).
Qed.

Lemma C4_adapter_raises_witness :
  let NOTES := run [POST_notes 5 (mkCreateNoteRequest "a")] NOTES_initial in
  let payload := mkSummaryRequest (Some "q") (Some "5") (Some "gemini") in
  reachable NOTES ∧ (∃ n, n ∈ NOTES ∧ id n = "5") ∧
  selected (modelName payload) echo never = Some never ∧
  serve (POST_summary 9 echo never payload) NOTES
  = ({| status := 500; body := ErrorBody "Failed to summarize note" |}, NOTES).
Proof.
  assert (∃ n, n ∈ run [POST_notes 5 (mkCreateNoteRequest "a")] NOTES_initial ∧ id n = "5")
    as Hex.
  { exists (mkNote "5" "a"). split; [left | reflexivity]. }
  assert ("q" ≠ "") as Hq by discriminate.
  split; [apply reachable_run|]. split; [exact Hex|]. split; [reflexivity|].
  exact (C4_adapter_raises_500_unchanged 9 echo never
    (mkSummaryRequest (Some "q") (Some "5") (Some "gemini")) _ "q" "5" never
    (reachable_run _) eq_refl Hq eq_refl Hex eq_refl (λ _ _, eq_refl)).
Defined.

(** C5: in any state the service can reach, for a request with a non-empty
    [userQuery], a [notesId] that is the id of a note of the list and a valid
    [modelName], if the selected adapter returns a falsy result ([None] or the
    empty string), a note with the text "No summary generated" (and the
    rendered clock reading as its id) is appended to the list, and the answer
    is 200 with that same string as its summary. *)
Theorem C5_falsy_result_fallback_note (now_ms : Z) (openai gemini : Adapter)
    (payload : SummaryRequest) (NOTES : Store)
    (user_query notes_id : string) (adapter : Adapter) :
  reachable NOTES →
  userQuery payload = Some user_query → user_query ≠ "" →
  notesId payload = Some notes_id → (∃ n, n ∈ NOTES ∧ id n = notes_id) →
  selected (modelName payload) openai gemini = Some adapter →
  (∀ note, next_match notes_id NOTES = Some note →
           ∃ llm_res, adapter (text note) user_query = Returns llm_res ∧
                      truthy llm_res = false) →
  serve (POST_summary now_ms openai gemini payload) NOTES
  = ({| status := 200; body := SummaryResponse "No summary generated" |},
     NOTES ++ [ {| id := str now_ms; text := "No summary generated" |} ]).
Proof.
  intros Hreach Hq Hq' Hn Hex Hsel Hfalsy.
  pose proof (reachable_present_nonempty _ _ Hreach Hex) as Hn'.
  destruct (next_match_present _ _ Hex) as [note Hfind].
  destruct (Hfalsy note Hfind) as (llm_res & Hres & Hllm).
  rewrite (serve_summary_found _ _ _ _ _ user_query notes_id note) by done.
  by rewrite Hsel, Hres, Hllm.
Qed.

Lemma C5_falsy_result_witness :
  let NOTES := run [POST_notes 5 (mkCreateNoteRequest "a")] NOTES_initial in
  let payload := mkSummaryRequest (Some "q") (Some "5") (Some "openai") in
  reachable NOTES ∧ (∃ n, n ∈ NOTES ∧ id n = "5") ∧
  selected (modelName payload) blank never = Some blank ∧
  serve (POST_summary 9 blank never payload) NOTES
  = ({| status := 200; body := SummaryResponse "No summary generated" |},
     [mkNote "5" "a"; mkNote "9" "No summary generated"]).
Proof.
  assert (∃ n, n ∈ run [POST_notes 5 (mkCreateNoteRequest "a")] NOTES_initial ∧ id n = "5")
    as Hex.
  { exists (mkNote "5" "a"). split; [left | reflexivity]. }
  assert ("q" ≠ "") as Hq by discriminate.
  split; [apply reachable_run|]. split; [exact Hex|]. split; [reflexivity|].
  exact (C5_falsy_result_fallback_note 9 blank never
    (mkSummaryRequest (Some "q") (Some "5") (Some "openai")) _ "q" "5" blank
    (reachable_run _) eq_refl Hq eq_refl Hex eq_refl
    (λ _ _, ex_intro _ (Some "") (conj eq_refl eq_refl))).
Defined.

(** ** Listing and the ids *)

(** C7: after any sequence of creates from the empty list, with the clock
    showing a time at or after the epoch at each of them, GET /api/notes
    returns the created notes in creation order, each with its text and with
    the decimal rendering of its creation timestamp in milliseconds as id,
    which is an all-digit string. *)
Theorem C7_creates_listed_in_creation_order (creates : list (Z * CreateNoteRequest)) :
  Forall (λ c, (0 ≤ c.1)%Z) creates →
  let NOTES := run (map (λ c, POST_notes c.1 c.2) creates) NOTES_initial in
  let listed := map (λ c, {| id := str c.1; text := payload_text c.2 |}) creates in
  serve GET_notes NOTES = ({| status := 200; body := NotesBody listed |}, NOTES) ∧
  Forall (λ n, isdigit (id n) = true) listed.
Proof.
  intros Hclock NOTES listed. subst NOTES listed.
  rewrite run_creates, serve_list. split; [done|].
  apply Forall_fmap. eapply Forall_impl; [exact Hclock|].
  intros c Hc. simpl. by apply isdigit_str.
Qed.

Lemma C7_creates_listed_witness :
  let creates := [(1700000000123, mkCreateNoteRequest "hello");
                  (1700000000123, mkCreateNoteRequest "");
                  (1700000004567, mkCreateNoteRequest "bye")]%Z in
  Forall (λ c, (0 ≤ c.1)%Z) creates ∧
  (serve GET_notes (run (map (λ c, POST_notes c.1 c.2) creates) NOTES_initial)).1
  = {| status := 200;
       body := NotesBody [mkNote "1700000000123" "hello"; mkNote "1700000000123" "";
                          mkNote "1700000004567" "bye"] |}.
Proof.
  assert (Forall (λ c : Z * CreateNoteRequest, (0 ≤ c.1)%Z)
            [(1700000000123, mkCreateNoteRequest "hello");
             (1700000000123, mkCreateNoteRequest "");
             (1700000004567, mkCreateNoteRequest "bye")]%Z) as Hclock.
  { repeat constructor; simpl; lia. }
  split; [exact Hclock|].
  exact (f_equal fst (proj1 (C7_creates_listed_in_creation_order _ Hclock))).
Defined.

(** C8: GET /api/notes leaves the list as it is, and its answer is the list
    it found; so two calls in a row, with nothing in between, give the same
    answer, the same notes in the same order. *)
Theorem C8_list_twice_same_answer (NOTES : Store) :
  let first := serve GET_notes NOTES in
  let second := serve GET_notes first.2 in
  first.1 = second.1 ∧
  first.1 = {| status := 200; body := NotesBody NOTES |} ∧
  first.2 = NOTES ∧ second.2 = NOTES.
Proof. by rewrite !serve_list. Qed.

(** C10: with the clock showing a time at or after the epoch at every
    request, every operation keeps the ids of the list all-digit (a note the
    summary endpoint appends gets its id the way a created note does), so at
    every moment of a run from the empty list every note has an all-digit
    id. *)
Theorem C10_every_id_all_digits (rs : list Request) (NOTES : Store) :
  Forall after_epoch rs →
  (digit_ids NOTES → digit_ids (run rs NOTES)) ∧
  (∀ k, digit_ids (run (take k rs) NOTES_initial)) ∧
  digit_ids (run rs NOTES_initial).
Proof.
  intros Hrs. unfold digit_ids. split_and!.
  - intros Hinv. apply (run_ids (λ s, isdigit s = true)); [|done].
    by apply after_epoch_digit_clock.
  - intros k. apply (run_ids (λ s, isdigit s = true)); [|by constructor].
    by apply after_epoch_digit_clock, Forall_take.
  - apply (run_ids (λ s, isdigit s = true)); [|by constructor].
    by apply after_epoch_digit_clock.
Qed.

Lemma C10_every_id_witness :
  let rs := [POST_notes 1700000000123 (mkCreateNoteRequest "a");
             POST_summary 1700000000456 silent never
               (mkSummaryRequest (Some "q") (Some "1700000000123") (Some "openai"));
             DELETE_note "1700000000123";
             GET_root; GET_notes] in
  Forall after_epoch rs ∧
  run rs NOTES_initial = [mkNote "1700000000456" "No summary generated"] ∧
  digit_ids (run rs NOTES_initial).
Proof.
  assert (Forall after_epoch
            [POST_notes 1700000000123 (mkCreateNoteRequest "a");
             POST_summary 1700000000456 silent never
               (mkSummaryRequest (Some "q") (Some "1700000000123") (Some "openai"));
             DELETE_note "1700000000123";
             GET_root; GET_notes]) as Hrs.
  { repeat constructor; unfold after_epoch; simpl; lia. }
  split; [exact Hrs|]. split; [reflexivity|].
  exact (proj2 (proj2 (C10_every_id_all_digits _ [] Hrs))).
Defined.

(** * Further properties of the handlers *)

(** ** Filter and lookup, composed *)

Lemma others_others_comm a b NOTES :
  others a (others b NOTES) = others b (others a NOTES).
Proof.
  unfold others. induction NOTES as [|n NOTES IH]; [done|].
  destruct (decide (id n = a)) as [Ha|Ha], (decide (id n = b)) as [Hb|Hb].
  - rewrite !(filter_cons_False _ n NOTES) by tauto. done.
  - rewrite (filter_cons_True (λ m, id m ≠ b)) by done.
    rewrite !(filter_cons_False (λ m, id m ≠ a)) by tauto. done.
  - rewrite (filter_cons_True (λ m, id m ≠ a)) by done.
    rewrite !(filter_cons_False (λ m, id m ≠ b)) by tauto. done.
  - rewrite (filter_cons_True (λ m, id m ≠ a) n NOTES) by done.
    rewrite (filter_cons_True (λ m, id m ≠ b) n NOTES) by done.
    rewrite (filter_cons_True (λ m, id m ≠ a)) by done.
    rewrite (filter_cons_True (λ m, id m ≠ b)) by done.
    by f_equal.
Qed.

Lemma others_absent_after a NOTES : ∀ n, n ∈ others a NOTES → id n ≠ a.
Proof. intros n Hn. by apply elem_of_others in Hn as [? _]. Qed.

Lemma next_match_cons notes_id n NOTES :
  next_match notes_id (n :: NOTES)
  = if decide (id n = notes_id) then Some n else next_match notes_id NOTES.
Proof.
  unfold next_match. simpl. case_decide; [done|].
  by destruct (list_find _ NOTES) as [[i m]|].
Qed.

Lemma next_match_app notes_id l1 l2 :
  next_match notes_id (l1 ++ l2)
  = match next_match notes_id l1 with
    | Some n => Some n
    | None => next_match notes_id l2
    end.
Proof.
  induction l1 as [|n l1 IH]; [done|].
  rewrite <-app_comm_cons, !next_match_cons. by case_decide.
Qed.

Lemma next_match_others_ne a notes_id NOTES :
  notes_id ≠ a → next_match notes_id (others a NOTES) = next_match notes_id NOTES.
Proof.
  intros Hne. unfold others. induction NOTES as [|n NOTES IH]; [done|].
  rewrite filter_cons, next_match_cons. case_decide.
  - rewrite next_match_cons. by case_decide.
  - rewrite decide_False by congruence. done.
Qed.

Lemma next_match_others_same a NOTES : next_match a (others a NOTES) = None.
Proof. apply next_match_None, others_absent_after. Qed.

Lemma posts_cons r rs :
  posts (r :: rs) = (if may_append r then 1 else 0) + posts rs.
Proof.
  unfold posts. rewrite filter_cons. destruct (may_append r); by case_decide.
Qed.

Lemma serve_length r NOTES :
  length (serve r NOTES).2 ≤ length NOTES + (if may_append r then 1 else 0).
Proof.
  destruct r as [| |now p|note_id|now o g p]; simpl may_append.
  - simpl. lia.
  - simpl. lia.
  - rewrite serve_create. simpl. rewrite length_app. simpl. lia.
  - rewrite serve_delete_store. pose proof (others_matching_length note_id NOTES). lia.
  - destruct (serve_summary_store now o g p NOTES) as [-> | [summary ->]]; [lia|].
    rewrite length_app. simpl. lia.
Qed.

Lemma serve_delete_lookup note_id NOTES :
  serve (DELETE_note note_id) NOTES
  = (match next_match note_id NOTES with
     | Some _ => {| status := 204; body := Null |}
     | None => {| status := 404; body := DetailBody "Note not found" |}
     end, others note_id NOTES).
Proof.
  destruct (next_match note_id NOTES) as [note|] eqn:Hfind.
  - apply serve_delete_present. exists note. by apply next_match_Some.
  - pose proof (proj1 (next_match_None _ _) Hfind) as Hno.
    by rewrite serve_delete_absent, others_id.
Qed.

(** ** Deleting, again and in sequence *)

(** X1: a DELETE of an id that a DELETE has just been served for, whatever
    that one answered, answers 404 and leaves the list as the first one left
    it. *)
Theorem X1_delete_again_404 (note_id : string) (NOTES : Store) :
  let once := serve (DELETE_note note_id) NOTES in
  serve (DELETE_note note_id) once.2
  = ({| status := 404; body := DetailBody "Note not found" |}, once.2).
Proof.
  simpl. rewrite serve_delete_store.
  apply serve_delete_absent, others_absent_after.
Qed.

(** X2: two DELETEs of different ids do not interfere: served in either
    order they leave the same list, and the answer to the second is the one
    it would have got on the list as it was before the first. *)
Theorem X2_deletes_of_different_ids_commute (a b : string) (NOTES : Store) :
  a ≠ b →
  run [DELETE_note a; DELETE_note b] NOTES = run [DELETE_note b; DELETE_note a] NOTES ∧
  (serve (DELETE_note b) (serve (DELETE_note a) NOTES).2).1
  = (serve (DELETE_note b) NOTES).1.
Proof.
  intros Hab. unfold run. simpl. rewrite !serve_delete_store. split.
  - apply others_others_comm.
  - rewrite !serve_delete_lookup. simpl. by rewrite next_match_others_ne.
Qed.

Lemma X2_deletes_commute_witness :
  let NOTES := [mkNote "5" "a"; mkNote "6" "b"; mkNote "7" "c"; mkNote "5" "d"] in
  "5" ≠ "7" ∧
  run [DELETE_note "5"; DELETE_note "7"] NOTES = [mkNote "6" "b"] ∧
  run [DELETE_note "7"; DELETE_note "5"] NOTES = [mkNote "6" "b"].
Proof.
  assert ("5" ≠ "7") as Hne by discriminate.
  split; [exact Hne|]. split; [reflexivity|].
  exact (eq_trans (eq_sym (proj1 (X2_deletes_of_different_ids_commute "5" "7"
    [mkNote "5" "a"; mkNote "6" "b"; mkNote "7" "c"; mkNote "5" "d"] Hne))) eq_refl).
Defined.

(** X3: DELETE and the lookup of the summary handler agree on what is in the
    list: DELETE answers 204 exactly when the lookup by the same id finds a
    note, and 404 with [{"detail": "Note not found"}] otherwise; it has no
    other answer. *)
Theorem X3_delete_answer_follows_lookup (note_id : string) (NOTES : Store) :
  (serve (DELETE_note note_id) NOTES).1
  = match next_match note_id NOTES with
    | Some _ => {| status := 204; body := Null |}
    | None => {| status := 404; body := DetailBody "Note not found" |}
    end.
Proof. by rewrite serve_delete_lookup. Qed.

(** X4: a DELETE leaves the lookup of every other id as it was: the note a
    summary request for another id works on is the same before and after. *)
Theorem X4_delete_keeps_other_lookups (note_id notes_id : string) (NOTES : Store) :
  notes_id ≠ note_id →
  next_match notes_id (serve (DELETE_note note_id) NOTES).2 = next_match notes_id NOTES.
Proof. intros Hne. rewrite serve_delete_store. by apply next_match_others_ne. Qed.

Lemma X4_delete_keeps_other_lookups_witness :
  let NOTES := [mkNote "5" "a"; mkNote "6" "b"; mkNote "6" "c"] in
  "6" ≠ "5" ∧
  next_match "6" (serve (DELETE_note "5") NOTES).2 = Some (mkNote "6" "b").
Proof.
  assert ("6" ≠ "5") as Hne by discriminate.
  split; [exact Hne|].
  exact (eq_trans (X4_delete_keeps_other_lookups "5" "6"
    [mkNote "5" "a"; mkNote "6" "b"; mkNote "6" "c"] Hne) eq_refl).
Defined.

(** X5: once a DELETE of an id has been served, a summary request for that
    id (with a non-empty query) is answered 404 with
    [{"error": "Note not found"}], whatever its [modelName], and adds
    nothing to the list. *)
Theorem X5_summary_after_delete_404 (now_ms : Z) (openai gemini : Adapter)
    (payload : SummaryRequest) (note_id : string) (NOTES : Store) :
  truthy (userQuery payload) = true →
  notesId payload = Some note_id → note_id ≠ "" →
  let deleted := serve (DELETE_note note_id) NOTES in
  serve (POST_summary now_ms openai gemini payload) deleted.2
  = ({| status := 404; body := ErrorBody "Note not found" |}, deleted.2).
Proof.
  intros Hq Hn Hne. simpl. rewrite serve_delete_store.
  apply serve_summary_not_found; [done| |].
  - rewrite Hn. simpl. by apply bool_decide_eq_true_2.
  - intros n Hin. rewrite Hn. intros [= Hid].
    by apply (others_absent_after note_id NOTES n).
Qed.

Lemma X5_summary_after_delete_witness :
  let payload := mkSummaryRequest (Some "q") (Some "5") (Some "openai") in
  let NOTES := [mkNote "5" "a"; mkNote "6" "b"] in
  truthy (userQuery payload) = true ∧ "5" ≠ "" ∧
  serve (POST_summary 9 echo echo payload) (serve (DELETE_note "5") NOTES).2
  = ({| status := 404; body := ErrorBody "Note not found" |}, [mkNote "6" "b"]).
Proof.
  assert ("5" ≠ "") as Hne by discriminate.
  split; [reflexivity|]. split; [exact Hne|].
  exact (X5_summary_after_delete_404 9 echo echo
    (mkSummaryRequest (Some "q") (Some "5") (Some "openai")) "5"
    [mkNote "5" "a"; mkNote "6" "b"] eq_refl eq_refl Hne).
Defined.

(** ** Creating, then deleting or looking up *)

Lemma run_cons r rs NOTES : run (r :: rs) NOTES = run rs (serve r NOTES).2.
Proof. reflexivity. Qed.

Lemma run_nil NOTES : run [] NOTES = NOTES.
Proof. reflexivity. Qed.

Lemma others_snoc_same note_id n NOTES :
  id n = note_id → others note_id (NOTES ++ [n]) = others note_id NOTES.
Proof.
  intros Hid. unfold others. rewrite filter_app.
  rewrite (filter_cons_False _ n []) by tauto. by rewrite app_nil_r.
Qed.

Lemma serve_create_then_delete now_ms payload NOTES :
  serve (DELETE_note (str now_ms)) (serve (POST_notes now_ms payload) NOTES).2
  = ({| status := 204; body := Null |}, others (str now_ms) NOTES).
Proof.
  rewrite serve_create. simpl. rewrite serve_delete_present.
  - by rewrite others_snoc_same.
  - eexists. split; [apply elem_of_app; right; left | done].
Qed.

(** X6: a DELETE of the id that POST /api/notes has just handed out always
    answers 204, and it removes, with the new note, every older note that
    carries the same id (one created in the same millisecond): what is left
    is the former list without the notes of that id. *)
Theorem X6_create_then_delete (now_ms : Z) (payload : CreateNoteRequest) (NOTES : Store) :
  let created := serve (POST_notes now_ms payload) NOTES in
  created.1 = {| status := 201;
                 body := NoteBody {| id := str now_ms; text := payload_text payload |} |} ∧
  serve (DELETE_note (str now_ms)) created.2
  = ({| status := 204; body := Null |}, others (str now_ms) NOTES).
Proof. split; [done | apply serve_create_then_delete]. Qed.

(** X7: when no note of the list carries the id the clock gives, creating a
    note and then deleting it by its id gives back the list exactly as it
    was. *)
Theorem X7_create_then_delete_restores (now_ms : Z) (payload : CreateNoteRequest)
    (NOTES : Store) :
  (∀ n, n ∈ NOTES → id n ≠ str now_ms) →
  run [POST_notes now_ms payload; DELETE_note (str now_ms)] NOTES = NOTES.
Proof.
  intros Hfresh. rewrite !run_cons, run_nil.
  rewrite serve_create_then_delete. simpl. by apply others_id.
Qed.

Lemma X7_create_then_delete_witness :
  let NOTES := [mkNote "5" "a"; mkNote "6" "b"] in
  (∀ n, n ∈ NOTES → id n ≠ str 7) ∧
  run [POST_notes 7 (mkCreateNoteRequest "c"); DELETE_note (str 7)] NOTES = NOTES.
Proof.
  assert (∀ n, n ∈ [mkNote "5" "a"; mkNote "6" "b"] → id n ≠ str 7) as Hfresh.
  { intros n Hn. apply list_elem_of_In in Hn. simpl in Hn.
    destruct Hn as [<-|[<-|[]]]; discriminate. }
  split; [exact Hfresh|].
  exact (X7_create_then_delete_restores 7 (mkCreateNoteRequest "c") _ Hfresh).
Defined.

(** X8: the lookup by the id of a note that has just been created finds the
    first note of the list with that id: an older note created in the same
    millisecond where there is one, and the new note only otherwise. A
    summary request for the new note's id therefore works on the older
    note's text in case of such a collision. *)
Theorem X8_lookup_after_create_finds_oldest (now_ms : Z) (payload : CreateNoteRequest)
    (NOTES : Store) :
  let created := {| id := str now_ms; text := payload_text payload |} in
  next_match (str now_ms) (serve (POST_notes now_ms payload) NOTES).2
  = Some (default created (next_match (str now_ms) NOTES)).
Proof.
  simpl. rewrite next_match_app, next_match_cons, decide_True by done.
  by destruct (next_match (str now_ms) NOTES).
Qed.

(** ** The answers of the summary handler *)



(** X10: the answer depends on the adapters only through the one the
    [modelName] names: two pairs of adapters that agree on it (for "openai"
    the first of each pair, for "gemini" the second, for any other name no
    matter what) give the same answer and the same list. *)
Theorem X10_summary_uses_selected_adapter_only (now_ms : Z)
    (openai gemini openai' gemini' : Adapter) (payload : SummaryRequest) (NOTES : Store) :
  (modelName payload = Some "openai" → ∀ t q, openai t q = openai' t q) →
  (modelName payload = Some "gemini" → ∀ t q, gemini t q = gemini' t q) →
  serve (POST_summary now_ms openai gemini payload) NOTES
  = serve (POST_summary now_ms openai' gemini' payload) NOTES.
Proof.
  intros Ho Hg.
  destruct (truthy (userQuery payload)) eqn:Hq;
    [|by rewrite !serve_summary_required by auto].
  destruct (truthy (notesId payload)) eqn:Hn;
    [|by rewrite !serve_summary_required by auto].
  pose proof Hq as (user_query & Hq1 & Hq2)%truthy_Some.
  pose proof Hn as (notes_id & Hn1 & Hn2)%truthy_Some.
  destruct (next_match notes_id NOTES) as [note|] eqn:Hfind.
  - rewrite !(serve_summary_found _ _ _ _ _ user_query notes_id note) by done.
    unfold selected. repeat case_decide; [by rewrite Ho | by rewrite Hg | done].
  - assert (∀ n, n ∈ NOTES → Some (id n) ≠ notesId payload) as Hno.
    { intros n Hin Hid. rewrite Hn1 in Hid. injection Hid as Hid.
      by apply (proj1 (next_match_None notes_id NOTES) Hfind n). }
    by rewrite !serve_summary_not_found.
Qed.

Lemma X10_summary_selected_adapter_witness :
  let payload := mkSummaryRequest (Some "q") (Some "5") (Some "openai") in
  (modelName payload = Some "gemini" → ∀ t q, never t q = blank t q) ∧
  serve (POST_summary 9 echo never payload) [mkNote "5" "a"]
  = serve (POST_summary 9 echo blank payload) [mkNote "5" "a"].
Proof.
  assert (Some "openai" = Some "gemini" → ∀ t q : string, never t q = blank t q) as Hg
    by discriminate.
  split; [exact Hg|].
  exact (X10_summary_uses_selected_adapter_only 9 echo never echo blank
    (mkSummaryRequest (Some "q") (Some "5") (Some "openai")) [mkNote "5" "a"]
    (λ _ _ _, eq_refl) Hg).
Defined.

(** ** The list over a run of requests *)

(** X11: the list grows only by POSTs, and by at most one note for each:
    after any sequence of requests it is at most as long as it was plus the
    number of POST requests served; GETs and DELETEs never add a note. *)
Theorem X11_list_grows_only_by_posts (rs : list Request) (NOTES : Store) :
  length (run rs NOTES) ≤ length NOTES + posts rs.
Proof.
  revert NOTES. induction rs as [|r rs IH]; intros NOTES.
  - rewrite run_nil. lia.
  - rewrite run_cons, posts_cons. pose proof (IH (serve r NOTES).2).
    pose proof (serve_length r NOTES). lia.
Qed.

Lemma str_inj : Inj (=) (=) str.
Proof. unfold str. apply _. Qed.

Lemma matching_single_of_NoDup (n : Note) (NOTES : Store) :
  NoDup (id <$> NOTES) → n ∈ NOTES → length (matching (id n) NOTES) = 1.
Proof.
  unfold matching. induction NOTES as [|m NOTES IH]; intros Hnd Hn.
  - by apply elem_of_nil in Hn.
  - rewrite fmap_cons in Hnd. apply NoDup_cons in Hnd as [Hm Hnd].
    destruct (decide (id m = id n)) as [Heq|Hne].
    + rewrite filter_cons_True by done. simpl. f_equal.
      apply length_zero_iff_nil, (matching_nil_iff (id n)).
      intros x Hx Hid. apply Hm. rewrite Heq, <-Hid. by apply list_elem_of_fmap_2.
    + rewrite filter_cons_False by done. apply IH; [done|].
      apply elem_of_cons in Hn as [->|Hn]; [done|done].
Qed.

Lemma ids_of_created (creates : list (Z * CreateNoteRequest)) :
  id <$> map (λ c, {| id := str c.1; text := payload_text c.2 |}) creates
  = str <$> (fst <$> creates).
Proof. induction creates as [|c creates IH]; [done|]. simpl. by f_equal. Qed.

(** X12: notes created at pairwise different clock readings get pairwise
    different ids, and then a DELETE of the id of any of them removes that
    one note and no other. *)
Theorem X12_distinct_clocks_distinct_ids (creates : list (Z * CreateNoteRequest)) :
  NoDup (fst <$> creates) →
  let NOTES := run (map (λ c, POST_notes c.1 c.2) creates) NOTES_initial in
  NoDup (id <$> NOTES) ∧
  ∀ n, n ∈ NOTES →
    serve (DELETE_note (id n)) NOTES
    = ({| status := 204; body := Null |}, others (id n) NOTES) ∧
    length (others (id n) NOTES) + 1 = length NOTES.
Proof.
  intros Hnd NOTES.
  assert (NoDup (id <$> NOTES)) as Hids.
  { subst NOTES. rewrite run_creates. simpl. rewrite ids_of_created.
    pose proof str_inj. by apply (NoDup_fmap_2 str). }
  split; [done|]. intros n Hn. split.
  - apply serve_delete_present. by exists n.
  - pose proof (others_matching_length (id n) NOTES).
    pose proof (matching_single_of_NoDup n NOTES Hids Hn). lia.
Qed.

Lemma X12_distinct_clocks_witness :
  let creates := [(5, mkCreateNoteRequest "a"); (6, mkCreateNoteRequest "b");
                  (9, mkCreateNoteRequest "c")]%Z in
  NoDup (fst <$> creates) ∧
  NoDup (id <$> run (map (λ c, POST_notes c.1 c.2) creates) NOTES_initial).
Proof.
  assert (NoDup (fst <$> [(5, mkCreateNoteRequest "a"); (6, mkCreateNoteRequest "b");
                          (9, mkCreateNoteRequest "c")]%Z)) as Hnd.
  { apply NoDup_ListNoDup. repeat constructor; simpl; intuition discriminate. }
  split; [exact Hnd|].
  exact (proj1 (X12_distinct_clocks_distinct_ids _ Hnd)).
Defined.

(** X13: with the clock at or after the epoch at every request, an id that
    is not an all-digit string is the id of no note the service holds: a
    DELETE of it is answered 404 and changes nothing, whatever requests were
    served before. *)
Theorem X13_non_digit_id_never_found (rs : list Request) (note_id : string) :
  Forall after_epoch rs →
  isdigit note_id = false →
  serve (DELETE_note note_id) (run rs NOTES_initial)
  = ({| status := 404; body := DetailBody "Note not found" |}, run rs NOTES_initial).
Proof.
  intros Hrs Hid. apply serve_delete_absent. intros n Hn Heq.
  assert (ids_satisfy (λ s, isdigit s = true) (run rs NOTES_initial)) as Hinv.
  { apply run_ids; [by apply after_epoch_digit_clock | by constructor]. }
  pose proof (proj1 (Forall_forall _ _) Hinv n Hn) as Hd. simpl in Hd.
  congruence.
Qed.

Lemma X13_non_digit_id_witness :
  let rs := [POST_notes 1700000000123 (mkCreateNoteRequest "a");
             POST_notes 1700000000456 (mkCreateNoteRequest "b")] in
  Forall after_epoch rs ∧ isdigit "17a" = false ∧
  status (serve (DELETE_note "17a") (run rs NOTES_initial)).1 = 404%Z.
Proof.
  assert (Forall after_epoch
            [POST_notes 1700000000123 (mkCreateNoteRequest "a");
             POST_notes 1700000000456 (mkCreateNoteRequest "b")]) as Hrs.
  { repeat constructor; unfold after_epoch; simpl; lia. }
  split; [exact Hrs|]. split; [reflexivity|].
  exact (f_equal (λ out, status out.1)
    (X13_non_digit_id_never_found _ "17a" Hrs eq_refl)).
Defined.

(** ** The order of the list *)

Lemma others_timestamps note_id NOTES (ts : list Z) :
  id <$> NOTES = str <$> ts →
  id <$> others note_id NOTES = str <$> filter (λ t, str t ≠ note_id) ts.
Proof.
  unfold others. revert ts. induction NOTES as [|n NOTES IH]; intros [|t ts] Hids;
    [done|done|done|].
  rewrite !fmap_cons in Hids. injection Hids as Hn Hids.
  rewrite !filter_cons, <-Hn.
  case_decide; [rewrite !fmap_cons, Hn; f_equal|]; by apply IH.
Qed.

Lemma StronglySorted_filter {A} (R : relation A) (P : A → Prop)
    `{!∀ a, Decision (P a)} (l : list A) :
  StronglySorted R l → StronglySorted R (filter P l).
Proof.
  induction 1 as [|a l Hl IH Ha]; [constructor|].
  rewrite filter_cons. case_decide; [|done].
  constructor; [done|]. apply Forall_forall. intros b [_ Hb]%list_elem_of_filter.
  by apply (proj1 (Forall_forall _ _) Ha).
Qed.

Lemma clocks_cons r rs :
  clocks (r :: rs) = match clock_of r with
                     | Some now_ms => now_ms :: clocks rs
                     | None => clocks rs
                     end.
Proof. unfold clocks. simpl. by destruct (clock_of r). Qed.

(** One request keeps the list in timestamp order, provided its clock
    reading is not before any timestamp of the list. *)
Lemma serve_timestamps r NOTES (ts : list Z) :
  id <$> NOTES = str <$> ts →
  StronglySorted Z.le ts →
  (∀ t now_ms, t ∈ ts → clock_of r = Some now_ms → (t ≤ now_ms)%Z) →
  ∃ ts', id <$> (serve r NOTES).2 = str <$> ts' ∧
         StronglySorted Z.le ts' ∧
         ∀ t, t ∈ ts' → t ∈ ts ∨ clock_of r = Some t.
Proof.
  intros Hids Hsorted Hclock.
  assert (∀ now_ms summary, clock_of r = Some now_ms →
            ∃ ts', id <$> (NOTES ++ [ {| id := str now_ms; text := summary |} ])
                   = str <$> ts' ∧
                   StronglySorted Z.le ts' ∧
                   ∀ t, t ∈ ts' → t ∈ ts ∨ clock_of r = Some t) as Happend.
  { intros now_ms summary Hr. exists (ts ++ [now_ms]). split_and!.
    - rewrite !fmap_app, Hids. done.
    - apply StronglySorted_app_2; [|done|repeat constructor].
      intros t c Ht Hc%list_elem_of_singleton. subst c. by apply Hclock.
    - intros t [Ht|Ht%list_elem_of_singleton]%elem_of_app; [by left|].
      right. by subst t. }
  assert (∃ ts', id <$> NOTES = str <$> ts' ∧ StronglySorted Z.le ts' ∧
                 ∀ t, t ∈ ts' → t ∈ ts ∨ clock_of r = Some t) as Hsame.
  { exists ts. split_and!; [done|done|]. intros t Ht. by left. }
  destruct r as [| |now p|note_id|now o g p].
  - exact Hsame.
  - exact Hsame.
  - rewrite serve_create. by apply Happend.
  - rewrite serve_delete_store. exists (filter (λ t, str t ≠ note_id) ts). split_and!.
    + by apply others_timestamps.
    + by apply StronglySorted_filter.
    + intros t [_ Ht]%list_elem_of_filter. by left.
  - destruct (serve_summary_store now o g p NOTES) as [-> | [summary ->]].
    + exact Hsame.
    + by apply Happend.
Qed.

Lemma run_timestamps rs : ∀ NOTES (ts : list Z),
  id <$> NOTES = str <$> ts →
  StronglySorted Z.le ts →
  (∀ t c, t ∈ ts → c ∈ clocks rs → (t ≤ c)%Z) →
  StronglySorted Z.le (clocks rs) →
  ∃ ts', id <$> run rs NOTES = str <$> ts' ∧
         StronglySorted Z.le ts' ∧
         ∀ t, t ∈ ts' → t ∈ ts ∨ t ∈ clocks rs.
Proof.
  induction rs as [|r rs IH]; intros NOTES ts Hids Hsorted Hle Hclocks.
  - exists ts. rewrite run_nil. split_and!; [done|done|]. intros t Ht. by left.
  - rewrite clocks_cons in Hle, Hclocks.
    destruct (serve_timestamps r NOTES ts Hids Hsorted) as (ts1 & Hids1 & Hsorted1 & Hfrom1).
    { intros t now_ms Ht Hr. apply Hle; [done|]. rewrite Hr. left. }
    assert (StronglySorted Z.le (clocks rs)) as Hclocks'.
    { destruct (clock_of r); [|done]. by apply StronglySorted_cons in Hclocks as [_ ?]. }
    destruct (IH (serve r NOTES).2 ts1 Hids1 Hsorted1) as (ts' & Hids' & Hsorted' & Hfrom');
      [|done|].
    { intros t c Ht Hc. destruct (Hfrom1 t Ht) as [Hin|Hr].
      - apply Hle; [done|]. destruct (clock_of r); [by right | done].
      - rewrite Hr in Hclocks. apply StronglySorted_cons in Hclocks as [Hall _].
        by apply (proj1 (Forall_forall _ _) Hall). }
    exists ts'. rewrite run_cons, clocks_cons. split_and!; [done|done|].
    intros t Ht. destruct (Hfrom' t Ht) as [Hin|Hin].
    + destruct (Hfrom1 t Hin) as [?|Hr]; [by left|]. right. rewrite Hr. left.
    + right. destruct (clock_of r); [by right | done].
Qed.

(** X14: when the clock never runs backwards from one request to the next,
    the list is at every moment in timestamp order: the ids of its notes, in
    list order, are the decimal renderings of a non-decreasing sequence of
    numbers, each of which is the clock reading of one of the POSTs served. *)
Theorem X14_list_in_timestamp_order (rs : list Request) :
  StronglySorted Z.le (clocks rs) →
  ∃ ts : list Z,
    id <$> run rs NOTES_initial = str <$> ts ∧
    StronglySorted Z.le ts ∧
    ∀ t, t ∈ ts → t ∈ clocks rs.
Proof.
  intros Hclocks.
  destruct (run_timestamps rs NOTES_initial [] eq_refl (SSorted_nil _)) as
    (ts & Hids & Hsorted & Hfrom); [|done|].
  { by intros t c Ht%elem_of_nil. }
  exists ts. split_and!; [done|done|].
  intros t Ht. by destruct (Hfrom t Ht) as [?%elem_of_nil|?].
Qed.

Lemma X14_timestamp_order_witness :
  let rs := [POST_notes 5 (mkCreateNoteRequest "a");
             POST_summary 5 echo never
               (mkSummaryRequest (Some "q") (Some "5") (Some "openai"));
             DELETE_note "4";
             POST_notes 8 (mkCreateNoteRequest "b")] in
  StronglySorted Z.le (clocks rs) ∧
  ∃ ts : list Z, id <$> run rs NOTES_initial = str <$> ts ∧ StronglySorted Z.le ts.
Proof.
  assert (StronglySorted Z.le
            (clocks [POST_notes 5 (mkCreateNoteRequest "a");
                     POST_summary 5 echo never
                       (mkSummaryRequest (Some "q") (Some "5") (Some "openai"));
                     DELETE_note "4";
                     POST_notes 8 (mkCreateNoteRequest "b")])) as Hclocks.
  { repeat constructor; lia. }
  split; [exact Hclocks|].
  destruct (X14_list_in_timestamp_order _ Hclocks) as (ts & Hids & Hsorted & _).
  exists ts. by split.
Defined.

(** ** Success and failure *)

(** X15: in any state the service can reach, for a request with a non-empty
    [userQuery] and a valid [modelName], when the selected adapter returns a
    non-empty string for the text of the first note with the id [notesId],
    the answer is 200 with that string, unaltered, as summary, and a note
    with that string as text and the rendered clock reading as id is
    appended; the notes already in the list stay as they are. *)
Theorem X15_summary_success_appends_result (now_ms : Z) (openai gemini : Adapter)
    (payload : SummaryRequest) (NOTES : Store)
    (user_query notes_id summary : string) (note : Note) (adapter : Adapter) :
  reachable NOTES →
  userQuery payload = Some user_query → user_query ≠ "" →
  notesId payload = Some notes_id →
  next_match notes_id NOTES = Some note →
  selected (modelName payload) openai gemini = Some adapter →
  adapter (text note) user_query = Returns (Some summary) → summary ≠ "" →
  serve (POST_summary now_ms openai gemini payload) NOTES
  = ({| status := 200; body := SummaryResponse summary |},
     NOTES ++ [ {| id := str now_ms; text := summary |} ]).
Proof.
  intros Hreach Hq Hq' Hn Hfind Hsel Hres Hsum.
  assert (notes_id ≠ "") as Hn'.
  { apply (reachable_present_nonempty NOTES); [done|].
    exists note. by apply next_match_Some. }
  rewrite (serve_summary_found _ _ _ _ _ user_query notes_id note) by done.
  rewrite Hsel, Hres. simpl. by rewrite bool_decide_eq_true_2.
Qed.

Lemma X15_summary_success_witness :
  let NOTES := run [POST_notes 5 (mkCreateNoteRequest "first");
                    POST_notes 5 (mkCreateNoteRequest "second")] NOTES_initial in
  let payload := mkSummaryRequest (Some "q") (Some "5") (Some "gemini") in
  reachable NOTES ∧ next_match "5" NOTES = Some (mkNote "5" "first") ∧
  serve (POST_summary 9 never echo payload) NOTES
  = ({| status := 200; body := SummaryResponse "first" |},
     [mkNote "5" "first"; mkNote "5" "second"; mkNote "9" "first"]).
Proof.
  assert ("q" ≠ "") as Hq by discriminate.
  assert ("first" ≠ "") as Hs by discriminate.
  split; [apply reachable_run|]. split; [reflexivity|].
  exact (X15_summary_success_appends_result 9 never echo
    (mkSummaryRequest (Some "q") (Some "5") (Some "gemini"))
    (run [POST_notes 5 (mkCreateNoteRequest "first");
          POST_notes 5 (mkCreateNoteRequest "second")] NOTES_initial)
    "q" "5" "first" (mkNote "5" "first") echo
    (reachable_run _) eq_refl Hq eq_refl eq_refl eq_refl eq_refl Hs).
Defined.




(** X17: no note the service ever holds has the empty string as id, whatever
    the clock shows; so the id of every note of the list passes the
    required-fields check of a summary request. *)
Theorem X17_ids_never_empty (rs : list Request) (n : Note) :
  n ∈ run rs NOTES_initial →
  id n ≠ "" ∧ truthy (Some (id n)) = true.
Proof.
  intros Hn.
  assert (id n ≠ "") as Hid.
  { by apply (proj1 (Forall_forall _ _)
                (reachable_ids_nonempty _ (reachable_run rs)) n). }
  split; [done|]. simpl. by apply bool_decide_eq_true_2.
Qed.

Lemma X17_ids_never_empty_witness :
  let rs := [POST_notes (-3) (mkCreateNoteRequest ""); GET_notes] in
  mkNote "-3" "" ∈ run rs NOTES_initial ∧ id (mkNote "-3" "") ≠ "".
Proof.
  assert (mkNote "-3" "" ∈ run [POST_notes (-3) (mkCreateNoteRequest ""); GET_notes]
            NOTES_initial) as Hin by left.
  split; [exact Hin|].
  exact (proj1 (X17_ids_never_empty _ _ Hin)).
Defined.
